(** * nRF52840 tech demo (BLE peripheral): a shallow embedding of [main.c]

    The firmware is sequential initialisation of vendor modules followed by
    two callbacks, [button_handler] and [ble_evt_handler].  Every function of
    [main.c] is embedded as a state transformer over the program's globals,
    the board LEDs and a chronological trace of the calls made into the SDK
    and the SoftDevice.  Identifiers that [main.c] uses but that are declared
    in the vendor headers are the fields of the class [Sdk]. *)

From stdpp Require Import base gmap list strings.
From Stdlib Require Import ZArith Lia.

Local Open Scope Z_scope.

(** ** Vendor structures, as far as [main.c] fills them in

    Fields that [main.c] never names keep the zero that [memset] gives them
    and are listed only where a property depends on them. *)

Record ble_gap_conn_sec_mode_t := { sm : Z; lv : Z }.

Record ble_gap_conn_params_t := {
  min_conn_interval : Z;
  max_conn_interval : Z;
  slave_latency : Z;
  conn_sup_timeout : Z
}.

Record ble_uuid_t := { uuid : Z; type : Z }.

Record ble_gatt_char_props_t := {
  broadcast : bool;
  read : bool;
  write_wo_resp : bool;
  write : bool;
  notify : bool;
  indicate : bool;
  auth_signed_wr : bool
}.

Record ble_add_char_params_t := {
  cp_uuid : Z;
  cp_uuid_type : Z;
  max_len : Z;
  init_len : Z;
  p_init_value : option (list Z);
  is_var_len : bool;
  char_props : ble_gatt_char_props_t;
  is_defered_read : bool;
  is_defered_write : bool;
  read_access : Z;
  write_access : Z;
  cccd_write_access : Z;
  is_value_user : bool
}.

Record ble_gatts_char_handles_t := {
  value_handle : Z;
  user_desc_handle : Z;
  cccd_handle : Z;
  sccd_handle : Z
}.

Record ble_advdata_t := {
  name_type : Z;
  include_appearance : bool;
  flags : Z;
  uuids_complete : list ble_uuid_t
}.

(** [ble_data_t]: [p_data] is the content of the array the pointer refers
    to, [len] the length field next to it. *)
Record ble_data_t := { p_data : list Z; len : Z }.

Record ble_gap_adv_data_t := {
  adv_data : ble_data_t;
  scan_rsp_data : ble_data_t
}.

Record ble_gap_adv_params_t := {
  primary_phy : Z;
  duration : Z;
  properties_type : Z;
  p_peer_addr : option Z;
  filter_policy : Z;
  interval : Z
}.

Record ble_conn_params_init_t := {
  p_conn_params : option ble_gap_conn_params_t;
  first_conn_params_update_delay : Z;
  next_conn_params_update_delay : Z;
  max_conn_params_update_count : Z;
  start_on_notify_cccd_handle : Z;
  disconnect_on_fail : bool
}.

Record ble_gatts_hvx_params_t := {
  hvx_handle : Z;
  hvx_type : Z;
  hvx_offset : Z;
  hvx_len : Z;
  hvx_data : list Z
}.

(** The part of a [ble_evt_t] that [ble_evt_handler] reads. *)
Record ble_evt_t := { evt_id : Z; conn_handle : Z }.

Record app_button_cfg_t := {
  pin_no : Z;
  active_state : bool;
  pull_cfg : Z
}.

(** ** Identifiers taken from the vendor headers

    Constants and macros that [main.c] uses without defining them.  The
    development is parametric in their values; [nrf5_sdk] below gives the
    values of the nRF5 SDK for the nRF52840 DK. *)
Class Sdk := {
  BLE_CONN_HANDLE_INVALID : Z;
  BLE_GAP_ADV_SET_HANDLE_NOT_SET : Z;
  BLE_GAP_ADV_SET_DATA_SIZE_MAX : Z;
  BLE_GAP_ADV_TIMEOUT_GENERAL_UNLIMITED : Z;
  BLE_GAP_EVT_CONNECTED : Z;
  BLE_GAP_EVT_DISCONNECTED : Z;
  BLE_GATT_HVX_NOTIFICATION : Z;
  BLE_GATT_HANDLE_INVALID : Z;
  BLE_GATTS_SRVC_TYPE_PRIMARY : Z;
  BLE_ADVDATA_FULL_NAME : Z;
  BLE_GAP_ADV_FLAGS_LE_ONLY_GENERAL_DISC_MODE : Z;
  BLE_GAP_PHY_1MBPS : Z;
  BLE_GAP_ADV_TYPE_CONNECTABLE_SCANNABLE_UNDIRECTED : Z;
  BLE_GAP_ADV_FP_ANY : Z;
  BLE_GAP_CONN_SEC_MODE_SET_OPEN : ble_gap_conn_sec_mode_t;
  SEC_OPEN : Z;
  BSP_INIT_LEDS : Z;
  BSP_BOARD_BUTTON_0 : Z;
  BSP_BOARD_LED_1 : Z;
  BSP_BOARD_LED_2 : Z;
  BSP_BOARD_LED_3 : Z;
  BUTTON_PULL : Z;
  APP_BUTTON_PUSH : Z;
  APP_BUTTON_RELEASE : Z;
  UNIT_1_25_MS : Z;
  UNIT_10_MS : Z;
  MSEC_TO_UNITS : Z -> Z -> Z;
  APP_TIMER_TICKS : Z -> Z;
  (** Modelled from the spec: [ble_advdata_encode] is vendor code that the
      repository only calls.  The design treats payload encoding as an
      opaque service that builds a payload from the device name and the
      descriptor (name type, appearance, flags, service UUIDs) into a
      fixed-capacity buffer: a function from the device name held by the
      stack, the descriptor and the buffer with its capacity to the buffer
      and the length after the call. *)
  ble_advdata_encode : string -> ble_advdata_t -> ble_data_t -> ble_data_t
}.

(** ** Definitions/Constants of [main.c] *)

Definition APP_BLE_OBSERVER_PRIO : Z := 3.
Definition APP_BLE_CONN_CFG_TAG : Z := 1.
Definition DEVICE_NAME : string := "nRF52840_TechDemo".
Definition SLAVE_LATENCY : Z := 0.
Definition APP_ADV_INTERVAL : Z := 64.
Definition MAX_CONN_PARAMS_UPDATE_COUNT : Z := 3.
Definition UUID_BASE : list Z :=
  [0x23; 0xD1; 0xBC; 0xEA; 0x5F; 0x78; 0x23; 0x15;
   0xDE; 0xEF; 0x12; 0x12; 0x00; 0x00; 0x00; 0x00].
Definition UUID_SERVICE : Z := 0x1234.
Definition UUID_BUTTON_CHAR : Z := 0x1234.

Section Constants.
Context `{Sdk}.

Definition MIN_CONN_INTERVAL : Z := MSEC_TO_UNITS 100 UNIT_1_25_MS.
Definition MAX_CONN_INTERVAL : Z := MSEC_TO_UNITS 200 UNIT_1_25_MS.
Definition CONN_SUP_TIMEOUT : Z := MSEC_TO_UNITS 4000 UNIT_10_MS.
Definition APP_ADV_DURATION : Z := BLE_GAP_ADV_TIMEOUT_GENERAL_UNLIMITED.
Definition FIRST_CONN_PARAMS_UPDATE_DELAY : Z := APP_TIMER_TICKS 20000.
Definition NEXT_CONN_PARAMS_UPDATE_DELAY : Z := APP_TIMER_TICKS 5000.
End Constants.

(** ** Effects

    One constructor per function that [main.c] calls outside itself, with
    the arguments it passes, and one for the store into [m_conn_handle]. *)
Inductive effect :=
  | bsp_board_init_call (init_flags : Z)
  | app_timer_init_call
  | nrf_sdh_enable_request_call
  | app_button_init_call (buttons : list app_button_cfg_t) (detection_delay : Z)
  | app_button_enable_call
  | nrf_sdh_ble_default_cfg_set_call (conn_cfg_tag : Z)
  | nrf_sdh_ble_enable_call
  | nrf_ble_gatt_init_call
  | sd_ble_gap_device_name_set_call
      (sec_mode : ble_gap_conn_sec_mode_t) (name : string) (name_len : Z)
  | sd_ble_gap_ppcp_set_call (params : ble_gap_conn_params_t)
  | nrf_ble_qwr_init_call
  | sd_ble_uuid_vs_add_call (base_uuid : list Z)
  | sd_ble_gatts_service_add_call (srvc_type : Z) (srvc_uuid : ble_uuid_t)
  | characteristic_add_call (service_handle : Z) (params : ble_add_char_params_t)
  | ble_advdata_encode_call (advdata : ble_advdata_t) (buffer : ble_data_t)
  | sd_ble_gap_adv_set_configure_call
      (adv_handle : Z) (data : ble_gap_adv_data_t) (params : ble_gap_adv_params_t)
  | ble_conn_params_init_call (params : ble_conn_params_init_t)
  | sd_ble_gap_adv_start_call (adv_handle : Z) (conn_cfg_tag : Z)
  | sd_ble_gatts_hvx_call (conn : Z) (params : ble_gatts_hvx_params_t)
  | nrf_ble_qwr_conn_handle_assign_call (conn : Z)
  | bsp_board_led_on_call (led_idx : Z)
  | bsp_board_led_off_call (led_idx : Z)
  | m_conn_handle_store (value : Z).

(** ** Program state

    The globals of [main.c], the LEDs of the board, the device name held by
    the stack, and the trace of effects, oldest first. *)
Record state := {
  m_conn_handle : Z;
  m_adv_handle : Z;
  m_adv_data : ble_gap_adv_data_t;
  button_char_handles : ble_gatts_char_handles_t;
  leds : gmap Z bool;
  sd_device_name : string;
  trace : list effect
}.

(** Values the stack writes through the out-parameters of the start-up
    calls. *)
Record startup_replies := {
  reply_uuid_type : Z;
  reply_service_handle : Z;
  reply_char_handles : ble_gatts_char_handles_t;
  reply_adv_handle : Z
}.

Definition cmd : Type := state -> state.

Definition seq (c1 c2 : cmd) : cmd := fun s => c2 (c1 s).

Declare Scope cmd_scope.
Delimit Scope cmd_scope with cmd.
Bind Scope cmd_scope with cmd.
Notation "c1 ';;;' c2" := (seq c1 c2)
  (at level 90, right associativity) : cmd_scope.

Definition skip : cmd := fun s => s.

Definition emit (e : effect) : cmd := fun s =>
  {| m_conn_handle := m_conn_handle s;
     m_adv_handle := m_adv_handle s;
     m_adv_data := m_adv_data s;
     button_char_handles := button_char_handles s;
     leds := leds s;
     sd_device_name := sd_device_name s;
     trace := trace s ++ [e] |}.

Definition set_leds (f : gmap Z bool -> gmap Z bool) : cmd := fun s =>
  {| m_conn_handle := m_conn_handle s;
     m_adv_handle := m_adv_handle s;
     m_adv_data := m_adv_data s;
     button_char_handles := button_char_handles s;
     leds := f (leds s);
     sd_device_name := sd_device_name s;
     trace := trace s |}.

Definition set_m_conn_handle (v : Z) : cmd := fun s =>
  {| m_conn_handle := v;
     m_adv_handle := m_adv_handle s;
     m_adv_data := m_adv_data s;
     button_char_handles := button_char_handles s;
     leds := leds s;
     sd_device_name := sd_device_name s;
     trace := trace s |}.

Definition set_m_adv_handle (v : Z) : cmd := fun s =>
  {| m_conn_handle := m_conn_handle s;
     m_adv_handle := v;
     m_adv_data := m_adv_data s;
     button_char_handles := button_char_handles s;
     leds := leds s;
     sd_device_name := sd_device_name s;
     trace := trace s |}.

Definition set_m_adv_data (v : ble_gap_adv_data_t) : cmd := fun s =>
  {| m_conn_handle := m_conn_handle s;
     m_adv_handle := m_adv_handle s;
     m_adv_data := v;
     button_char_handles := button_char_handles s;
     leds := leds s;
     sd_device_name := sd_device_name s;
     trace := trace s |}.

Definition set_button_char_handles (v : ble_gatts_char_handles_t) : cmd := fun s =>
  {| m_conn_handle := m_conn_handle s;
     m_adv_handle := m_adv_handle s;
     m_adv_data := m_adv_data s;
     button_char_handles := v;
     leds := leds s;
     sd_device_name := sd_device_name s;
     trace := trace s |}.

Definition set_sd_device_name (v : string) : cmd := fun s =>
  {| m_conn_handle := m_conn_handle s;
     m_adv_handle := m_adv_handle s;
     m_adv_data := m_adv_data s;
     button_char_handles := button_char_handles s;
     leds := leds s;
     sd_device_name := v;
     trace := trace s |}.

(** [with_state f] runs the command [f s] chosen from the current state [s]:
    a read of a global inside a function body. *)
Definition with_state (f : state -> cmd) : cmd := fun s => f s s.

(** Conversions of C for a value stored into a field of the given width. *)
Definition u16 (x : Z) : Z := x mod 2 ^ 16.
Definition u32 (x : Z) : Z := x mod 2 ^ 32.

(** ** The functions of [main.c] *)

Section Program.
Context `{Sdk}.

(** *** Calls into the board support package, the SDK and the SoftDevice

    Each call is recorded in the trace with its arguments.  The result
    codes are dropped, as [main.c] drops them. *)

(** Modelled from the spec: the board support package is vendor code; the
    design has [bsp_board_led_on] and [bsp_board_led_off] turn the LED with
    the given index on and off. *)
Definition bsp_board_led_on (led_idx : Z) : cmd :=
  (emit (bsp_board_led_on_call led_idx) ;;;
   set_leds (<[led_idx := true]>))%cmd.

Definition bsp_board_led_off (led_idx : Z) : cmd :=
  (emit (bsp_board_led_off_call led_idx) ;;;
   set_leds (<[led_idx := false]>))%cmd.

(** Modelled from the spec: the SoftDevice is vendor code; the design has
    this call apply the device name to the stack, which keeps the first
    [name_len] bytes of it. *)
Definition sd_ble_gap_device_name_set
    (sec_mode : ble_gap_conn_sec_mode_t) (name : string) (name_len : Z) : cmd :=
  (emit (sd_ble_gap_device_name_set_call sec_mode name name_len) ;;;
   set_sd_device_name (String.substring 0 (Z.to_nat name_len) name))%cmd.

(** [sd_ble_gap_ppcp_set(&gap_conn_params)] *)
Definition sd_ble_gap_ppcp_set (params : ble_gap_conn_params_t) : cmd :=
  emit (sd_ble_gap_ppcp_set_call params).

(** [characteristic_add(service_handle, &add_char_params, &button_char_handles)]:
    the handles of the new characteristic arrive in [button_char_handles]. *)
Definition characteristic_add (service_handle : Z)
    (params : ble_add_char_params_t) (r : startup_replies) : cmd :=
  (emit (characteristic_add_call service_handle params) ;;;
   set_button_char_handles (reply_char_handles r))%cmd.

(** [ble_advdata_encode(&d, m_adv_data.adv_data.p_data, &m_adv_data.adv_data.len)] *)
Definition encode_adv_data (d : ble_advdata_t) : cmd :=
  with_state (fun s =>
    let buf := adv_data (m_adv_data s) in
    emit (ble_advdata_encode_call d buf) ;;;
    set_m_adv_data
      {| adv_data := ble_advdata_encode (sd_device_name s) d buf;
         scan_rsp_data := scan_rsp_data (m_adv_data s) |})%cmd.

(** [ble_advdata_encode(&d, m_adv_data.scan_rsp_data.p_data, &m_adv_data.scan_rsp_data.len)] *)
Definition encode_scan_rsp_data (d : ble_advdata_t) : cmd :=
  with_state (fun s =>
    let buf := scan_rsp_data (m_adv_data s) in
    emit (ble_advdata_encode_call d buf) ;;;
    set_m_adv_data
      {| adv_data := adv_data (m_adv_data s);
         scan_rsp_data := ble_advdata_encode (sd_device_name s) d buf |})%cmd.

(** [sd_ble_gap_adv_set_configure(&m_adv_handle, &m_adv_data, &adv_params)] *)
Definition sd_ble_gap_adv_set_configure
    (params : ble_gap_adv_params_t) (r : startup_replies) : cmd :=
  with_state (fun s =>
    emit (sd_ble_gap_adv_set_configure_call (m_adv_handle s) (m_adv_data s) params) ;;;
    set_m_adv_handle (reply_adv_handle r))%cmd.

(** [m_conn_handle = v;] *)
Definition store_m_conn_handle (v : Z) : cmd :=
  (emit (m_conn_handle_store v) ;;; set_m_conn_handle v)%cmd.

(** *** [gap_params_init] *)
Definition gap_params_init : cmd :=
  let sec_mode := BLE_GAP_CONN_SEC_MODE_SET_OPEN in
  (sd_ble_gap_device_name_set sec_mode DEVICE_NAME
     (Z.of_nat (String.length DEVICE_NAME)) ;;;
   let gap_conn_params :=
     {| min_conn_interval := u16 MIN_CONN_INTERVAL;
        max_conn_interval := u16 MIN_CONN_INTERVAL;
        slave_latency := u16 SLAVE_LATENCY;
        conn_sup_timeout := u16 CONN_SUP_TIMEOUT |} in
   sd_ble_gap_ppcp_set gap_conn_params)%cmd.

(** *** [services_init] *)
Definition services_init : cmd := emit nrf_ble_qwr_init_call.

(** *** [advertising_init] *)
Definition add_char_params (uuid_type : Z) : ble_add_char_params_t :=
  {| cp_uuid := UUID_BUTTON_CHAR;
     cp_uuid_type := uuid_type;
     max_len := 1;
     init_len := 1;
     p_init_value := None;
     is_var_len := false;
     char_props :=
       {| broadcast := false; read := true; write_wo_resp := false;
          write := false; notify := true; indicate := false;
          auth_signed_wr := false |};
     is_defered_read := false;
     is_defered_write := false;
     read_access := SEC_OPEN;
     write_access := 0;
     cccd_write_access := SEC_OPEN;
     is_value_user := false |}.

Definition advdata : ble_advdata_t :=
  {| name_type := BLE_ADVDATA_FULL_NAME;
     include_appearance := true;
     flags := BLE_GAP_ADV_FLAGS_LE_ONLY_GENERAL_DISC_MODE;
     uuids_complete := [] |}.

Definition srdata (adv_uuids : list ble_uuid_t) : ble_advdata_t :=
  {| name_type := 0;
     include_appearance := false;
     flags := 0;
     uuids_complete := adv_uuids |}.

Definition adv_params : ble_gap_adv_params_t :=
  {| primary_phy := BLE_GAP_PHY_1MBPS;
     duration := u16 APP_ADV_DURATION;
     properties_type := BLE_GAP_ADV_TYPE_CONNECTABLE_SCANNABLE_UNDIRECTED;
     p_peer_addr := None;
     filter_policy := BLE_GAP_ADV_FP_ANY;
     interval := APP_ADV_INTERVAL |}.

Definition advertising_init (r : startup_replies) : cmd :=
  (emit (sd_ble_uuid_vs_add_call UUID_BASE) ;;;
   let uuid_type := reply_uuid_type r in
   let ble_uuid := {| uuid := UUID_SERVICE; type := uuid_type |} in
   emit (sd_ble_gatts_service_add_call BLE_GATTS_SRVC_TYPE_PRIMARY ble_uuid) ;;;
   let service_handle := reply_service_handle r in
   characteristic_add service_handle (add_char_params uuid_type) r ;;;
   let adv_uuids := [ {| uuid := UUID_SERVICE; type := uuid_type |} ] in
   encode_adv_data advdata ;;;
   encode_scan_rsp_data (srdata adv_uuids) ;;;
   sd_ble_gap_adv_set_configure adv_params r)%cmd.

(** *** [conn_params_init] *)
Definition conn_params_init : cmd :=
  emit (ble_conn_params_init_call
    {| p_conn_params := None;
       first_conn_params_update_delay := u32 FIRST_CONN_PARAMS_UPDATE_DELAY;
       next_conn_params_update_delay := u32 NEXT_CONN_PARAMS_UPDATE_DELAY;
       max_conn_params_update_count := MAX_CONN_PARAMS_UPDATE_COUNT;
       start_on_notify_cccd_handle := BLE_GATT_HANDLE_INVALID;
       disconnect_on_fail := true |}).

(** *** [advertising_start] *)
Definition advertising_start : cmd :=
  (with_state (fun s =>
     emit (sd_ble_gap_adv_start_call (m_adv_handle s) APP_BLE_CONN_CFG_TAG)) ;;;
   bsp_board_led_on BSP_BOARD_LED_2)%cmd.

(** *** [send_button] *)
Definition send_button (button_state : Z) : cmd :=
  with_state (fun s =>
    let len := 1 in
    let params :=
      {| hvx_handle := value_handle (button_char_handles s);
         hvx_type := BLE_GATT_HVX_NOTIFICATION;
         hvx_offset := 0;
         hvx_len := len;
         hvx_data := [button_state] |} in
    emit (sd_ble_gatts_hvx_call (m_conn_handle s) params)).

(** *** [button_handler] *)
Definition button_handler (pin action : Z) : cmd :=
  if pin =? BSP_BOARD_BUTTON_0 then
    ((if action =? APP_BUTTON_PUSH then bsp_board_led_on BSP_BOARD_LED_1
      else if action =? APP_BUTTON_RELEASE then bsp_board_led_off BSP_BOARD_LED_1
      else skip) ;;;
     send_button action)%cmd
  else skip.

(** *** [ble_evt_handler] *)
Definition ble_evt_handler (p_ble_evt : ble_evt_t) : cmd :=
  if evt_id p_ble_evt =? BLE_GAP_EVT_CONNECTED then
    (bsp_board_led_off BSP_BOARD_LED_2 ;;;
     bsp_board_led_on BSP_BOARD_LED_3 ;;;
     store_m_conn_handle (conn_handle p_ble_evt) ;;;
     with_state (fun s => emit (nrf_ble_qwr_conn_handle_assign_call (m_conn_handle s))))%cmd
  else if evt_id p_ble_evt =? BLE_GAP_EVT_DISCONNECTED then
    (bsp_board_led_off BSP_BOARD_LED_3 ;;;
     store_m_conn_handle BLE_CONN_HANDLE_INVALID ;;;
     advertising_start)%cmd
  else skip.

(** *** [main]

    [NRF_SDH_BLE_OBSERVER] registers [ble_evt_handler] statically and makes
    no call at run time. *)
Definition buttons : list app_button_cfg_t :=
  [ {| pin_no := BSP_BOARD_BUTTON_0; active_state := false; pull_cfg := BUTTON_PULL |} ].

Definition main (r : startup_replies) : cmd :=
  (emit (bsp_board_init_call BSP_INIT_LEDS) ;;;
   emit app_timer_init_call ;;;
   emit nrf_sdh_enable_request_call ;;;
   emit (app_button_init_call buttons (u32 (APP_TIMER_TICKS 50))) ;;;
   emit app_button_enable_call ;;;
   emit (nrf_sdh_ble_default_cfg_set_call APP_BLE_CONN_CFG_TAG) ;;;
   emit nrf_sdh_ble_enable_call ;;;
   gap_params_init ;;;
   emit nrf_ble_gatt_init_call ;;;
   services_init ;;;
   advertising_init r ;;;
   conn_params_init ;;;
   advertising_start)%cmd.

(** The globals as their initialisers leave them; no LED driven, no call
    made yet.  [name0] is the device name the stack starts with. *)
Definition init_state (name0 : string) : state :=
  let zeroes := replicate (Z.to_nat BLE_GAP_ADV_SET_DATA_SIZE_MAX) 0 in
  {| m_conn_handle := BLE_CONN_HANDLE_INVALID;
     m_adv_handle := BLE_GAP_ADV_SET_HANDLE_NOT_SET;
     m_adv_data :=
       {| adv_data := {| p_data := zeroes; len := BLE_GAP_ADV_SET_DATA_SIZE_MAX |};
          scan_rsp_data := {| p_data := zeroes; len := BLE_GAP_ADV_SET_DATA_SIZE_MAX |} |};
     button_char_handles :=
       {| value_handle := 0; user_desc_handle := 0; cccd_handle := 0; sccd_handle := 0 |};
     leds := ∅;
     sd_device_name := name0;
     trace := [] |}.

(** *** The two event sources, after start-up *)
Inductive event :=
  | on_ble_evt (p_ble_evt : ble_evt_t)
  | on_button (pin action : Z).

Definition dispatch (ev : event) : cmd :=
  match ev with
  | on_ble_evt e => ble_evt_handler e
  | on_button pin action => button_handler pin action
  end.

Fixpoint run (evs : list event) : cmd :=
  match evs with
  | [] => skip
  | ev :: evs' => (dispatch ev ;;; run evs')%cmd
  end.

End Program.

(** ** The connection-state tracker of the design

    The states and link events of the design's transition table, next to
    the code: a connect event leads to [Connected] with the handle it
    delivers, a disconnect event leads back to [Advertising], a button edge
    leaves the state as it is. *)
Inductive tracker := Idle | Advertising | Connected (h : Z).

Inductive stimulus :=
  | link_connected (h : Z)
  | link_disconnected (h : Z)
  | button_edge (pin action : Z).

Definition tracker_step (st : tracker) (ev : stimulus) : tracker :=
  match ev with
  | link_connected h => Connected h
  | link_disconnected _ => Advertising
  | button_edge _ _ => st
  end.

Definition tracker_run (st : tracker) (evs : list stimulus) : tracker :=
  fold_left tracker_step evs st.

Section Tracker.
Context `{Sdk}.

(** The handle the tracker is expected to hold in each state. *)
Definition tracked_handle (st : tracker) : Z :=
  match st with
  | Connected h => h
  | Advertising | Idle => BLE_CONN_HANDLE_INVALID
  end.

(** How the stack and the button module deliver a stimulus to the code. *)
Definition deliver (ev : stimulus) : event :=
  match ev with
  | link_connected h =>
      on_ble_evt {| evt_id := BLE_GAP_EVT_CONNECTED; conn_handle := h |}
  | link_disconnected h =>
      on_ble_evt {| evt_id := BLE_GAP_EVT_DISCONNECTED; conn_handle := h |}
  | button_edge pin action => on_button pin action
  end.

Definition edges (bs : list (Z * Z)) : list stimulus :=
  map (fun b => button_edge (fst b) (snd b)) bs.

(** The notification [send_button] submits for a button state: one byte,
    addressed at the value handle of the button characteristic. *)
Definition notification (s : state) (button_state : Z) : effect :=
  sd_ble_gatts_hvx_call (m_conn_handle s)
    {| hvx_handle := value_handle (button_char_handles s);
       hvx_type := BLE_GATT_HVX_NOTIFICATION;
       hvx_offset := 0;
       hvx_len := 1;
       hvx_data := [button_state] |}.
End Tracker.

(** Registrations in a trace. *)
Definition is_service_add (e : effect) : bool :=
  match e with sd_ble_gatts_service_add_call _ _ => true | _ => false end.

Definition is_characteristic_add (e : effect) : bool :=
  match e with characteristic_add_call _ _ => true | _ => false end.

Definition is_ppcp_set (e : effect) : bool :=
  match e with sd_ble_gap_ppcp_set_call _ => true | _ => false end.

(** ** The nRF5 SDK on the nRF52840 DK

    One instance of [Sdk], at which the properties below are evaluated. *)

Definition bytes_of_string (s : string) : list Z :=
  map (fun c => Z.of_N (Ascii.N_of_ascii c)) (String.list_ascii_of_string s).

Definition ad_structure (ad_type : Z) (payload : list Z) : list Z :=
  (Z.of_nat (length payload) + 1) :: ad_type :: payload.

Definition uuid_bytes (u : ble_uuid_t) : list Z :=
  [uuid u mod 256; uuid u / 256].

(** Modelled from the spec: the content of a payload.  The design has the
    encoder put appearance, discovery flags, the complete service-UUID list
    and the full device name into the buffer; here each is laid out as a
    length-type-value structure. *)
Definition encode_fields (name : string) (d : ble_advdata_t) : list Z :=
  (if include_appearance d then ad_structure 0x19 [0; 0] else []) ++
  (if flags d =? 0 then [] else ad_structure 0x01 [flags d]) ++
  (match uuids_complete d with
   | [] => []
   | us => ad_structure 0x03 (List.flat_map uuid_bytes us)
   end) ++
  (if name_type d =? 0 then [] else ad_structure 0x09 (bytes_of_string name)).

(** Modelled from the spec: the advertising-data encoder, vendor code that
    the repository only calls.  The buffers have a fixed capacity and
    encoding fails if the content exceeds it: the content is written over
    the front of the buffer when it fits, and the length is reported as 0
    when it does not. *)
Definition model_ble_advdata_encode
    (name : string) (d : ble_advdata_t) (buf : ble_data_t) : ble_data_t :=
  let out := encode_fields name d in
  let n := Z.of_nat (length out) in
  if n <=? len buf
  then {| p_data := out ++ drop (length out) (p_data buf); len := n |}
  else {| p_data := p_data buf; len := 0 |}.

(** The values the SDK headers give to the identifiers of [Sdk]. *)
Definition nrf5_sdk : Sdk :=
  {| BLE_CONN_HANDLE_INVALID := 0xFFFF;
     BLE_GAP_ADV_SET_HANDLE_NOT_SET := 0xFF;
     BLE_GAP_ADV_SET_DATA_SIZE_MAX := 31;
     BLE_GAP_ADV_TIMEOUT_GENERAL_UNLIMITED := 0;
     BLE_GAP_EVT_CONNECTED := 0x10;
     BLE_GAP_EVT_DISCONNECTED := 0x11;
     BLE_GATT_HVX_NOTIFICATION := 0x01;
     BLE_GATT_HANDLE_INVALID := 0;
     BLE_GATTS_SRVC_TYPE_PRIMARY := 0x01;
     BLE_ADVDATA_FULL_NAME := 2;
     BLE_GAP_ADV_FLAGS_LE_ONLY_GENERAL_DISC_MODE := 0x06;
     BLE_GAP_PHY_1MBPS := 0x01;
     BLE_GAP_ADV_TYPE_CONNECTABLE_SCANNABLE_UNDIRECTED := 0x01;
     BLE_GAP_ADV_FP_ANY := 0;
     BLE_GAP_CONN_SEC_MODE_SET_OPEN := {| sm := 1; lv := 1 |};
     SEC_OPEN := 1;
     BSP_INIT_LEDS := 1;
     BSP_BOARD_BUTTON_0 := 0;
     BSP_BOARD_LED_1 := 1;
     BSP_BOARD_LED_2 := 2;
     BSP_BOARD_LED_3 := 3;
     BUTTON_PULL := 3;
     APP_BUTTON_PUSH := 1;
     APP_BUTTON_RELEASE := 0;
     UNIT_1_25_MS := 1250;
     UNIT_10_MS := 10000;
     MSEC_TO_UNITS := fun time resolution => Z.quot (time * 1000) resolution;
     APP_TIMER_TICKS := fun ms => Z.quot (ms * 16384 + 500) 1000;
     ble_advdata_encode := model_ble_advdata_encode |}.

(** A start-up in which the stack hands out the first vendor UUID type and
    small attribute handles, and a state with a link up. *)
Definition sample_replies : startup_replies :=
  {| reply_uuid_type := 2;
     reply_service_handle := 14;
     reply_char_handles :=
       {| value_handle := 16; user_desc_handle := 0; cccd_handle := 17; sccd_handle := 0 |};
     reply_adv_handle := 0 |}.

Definition booted : state :=
  @main nrf5_sdk sample_replies (@init_state nrf5_sdk "nRF5x").

Definition linked : state :=
  @ble_evt_handler nrf5_sdk {| evt_id := 0x10; conn_handle := 0 |} booted.




Definition sample_stimuli : list stimulus :=
  [link_connected 5; button_edge 0 1; link_disconnected 5; link_connected 7].

(** ** Observations on states, traces and event sequences *)

(** Whether the LED with the given index is lit: driven on by the last
    call that touched it. *)
Definition led_lit (l : gmap Z bool) (led_idx : Z) : bool :=
  default false (l !! led_idx).

Definition is_connected (st : tracker) : bool :=
  match st with Connected _ => true | Advertising | Idle => false end.

Definition is_hvx (e : effect) : bool :=
  match e with sd_ble_gatts_hvx_call _ _ => true | _ => false end.

Definition is_adv_start (e : effect) : bool :=
  match e with sd_ble_gap_adv_start_call _ _ => true | _ => false end.

Definition is_adv_set_configure (e : effect) : bool :=
  match e with sd_ble_gap_adv_set_configure_call _ _ _ => true | _ => false end.

(** The kinds of effect found in the bodies of [button_handler],
    [send_button], [ble_evt_handler] and [advertising_start]. *)
Definition handler_effect (e : effect) : bool :=
  match e with
  | bsp_board_led_on_call _
  | bsp_board_led_off_call _
  | m_conn_handle_store _
  | nrf_ble_qwr_conn_handle_assign_call _
  | sd_ble_gap_adv_start_call _ _
  | sd_ble_gatts_hvx_call _ _ => true
  | _ => false
  end.

(** The handle of the last [nrf_ble_qwr_conn_handle_assign] of a trace, on
    top of [acc] when the trace has none. *)
Definition last_qwr_assign (acc : option Z) (t : list effect) : option Z :=
  fold_left
    (fun a e =>
       match e with
       | nrf_ble_qwr_conn_handle_assign_call h => Some h
       | _ => a
       end) t acc.

(** The handle of the last connect event of a sequence. *)
Definition last_connect (acc : option Z) (evs : list stimulus) : option Z :=
  fold_left
    (fun a ev => match ev with link_connected h => Some h | _ => a end) evs acc.

Definition is_link_disconnected (ev : stimulus) : bool :=
  match ev with link_disconnected _ => true | _ => false end.

(** The number of disconnect events of a sequence. *)
Definition disconnects (evs : list stimulus) : nat :=
  length (List.filter is_link_disconnected evs).

Section Observations.
Context `{Sdk}.

Definition is_monitored_edge (ev : event) : bool :=
  match ev with
  | on_button pin _ => pin =? BSP_BOARD_BUTTON_0
  | on_ble_evt _ => false
  end.

(** The number of button events on [BSP_BOARD_BUTTON_0] of a sequence. *)
Definition monitored_edges (evs : list event) : nat :=
  length (List.filter is_monitored_edge evs).

(** What every notification of the button characteristic looks like: one
    byte, no offset, sent as a notification at the given value handle.
    Effects other than [sd_ble_gatts_hvx] are not constrained. *)
Definition button_notification (value_h : Z) (e : effect) : Prop :=
  match e with
  | sd_ble_gatts_hvx_call _ p =>
      hvx_handle p = value_h /\
      hvx_type p = BLE_GATT_HVX_NOTIFICATION /\
      hvx_offset p = 0 /\
      hvx_len p = 1 /\
      length (hvx_data p) = 1%nat
  | _ => True
  end.

(** The payload that [advertising_init] encodes at start-up: both buffers
    zeroed and at full capacity, the device name being [DEVICE_NAME]. *)
Definition startup_payload (uuid_type : Z) : ble_gap_adv_data_t :=
  let blank :=
    {| p_data := replicate (Z.to_nat BLE_GAP_ADV_SET_DATA_SIZE_MAX) 0;
       len := BLE_GAP_ADV_SET_DATA_SIZE_MAX |} in
  {| adv_data := ble_advdata_encode DEVICE_NAME advdata blank;
     scan_rsp_data :=
       ble_advdata_encode DEVICE_NAME
         (srdata [ {| uuid := UUID_SERVICE; type := uuid_type |} ]) blank |}.
End Observations.

(** A mixed sequence of raw events: two presses, an edge on another pin, a
    connect and a vendor-specific event. *)
Definition sample_events : list event :=
  [on_button 0 1;
   on_ble_evt {| evt_id := 0x10; conn_handle := 4 |};
   on_button 2 1;
   on_ble_evt {| evt_id := 0x50; conn_handle := 4 |};
   on_button 0 0].

(** ** Properties *)

(** Unfolds a command down to the record it builds. *)
Ltac exec :=
  unfold seq, with_state, skip, store_m_conn_handle, bsp_board_led_on,
    bsp_board_led_off, emit, set_leds, set_m_conn_handle; simpl.

Section Handlers.
Context `{Sdk}.

(** *** What the handlers leave alone *)

Lemma button_handler_m_conn_handle (pin action : Z) (s : state) :
  m_conn_handle (button_handler pin action s) = m_conn_handle s.
Proof.
  unfold button_handler, send_button.
  destruct (pin =? BSP_BOARD_BUTTON_0); [|reflexivity].
  destruct (action =? APP_BUTTON_PUSH); [reflexivity|].
  destruct (action =? APP_BUTTON_RELEASE); reflexivity.
Qed.

Lemma connected_m_conn_handle (e : ble_evt_t) (s : state) :
  evt_id e = BLE_GAP_EVT_CONNECTED ->
  m_conn_handle (ble_evt_handler e s) = conn_handle e.
Proof.
  intros He. unfold ble_evt_handler. rewrite He, Z.eqb_refl. reflexivity.
Qed.

Lemma disconnected_m_conn_handle (e : ble_evt_t) (s : state) :
  BLE_GAP_EVT_CONNECTED <> BLE_GAP_EVT_DISCONNECTED ->
  evt_id e = BLE_GAP_EVT_DISCONNECTED ->
  m_conn_handle (ble_evt_handler e s) = BLE_CONN_HANDLE_INVALID.
Proof.
  intros Hne He. unfold ble_evt_handler. rewrite He.
  destruct (Z.eqb_spec BLE_GAP_EVT_DISCONNECTED BLE_GAP_EVT_CONNECTED) as [E|_];
    [congruence|].
  rewrite Z.eqb_refl. reflexivity.
Qed.

Lemma main_m_conn_handle (r : startup_replies) (s : state) :
  m_conn_handle (main r s) = m_conn_handle s.
Proof. reflexivity. Qed.

(** *** The tracker follows the code, one event at a time *)

Lemma dispatch_tracks (st : tracker) (ev : stimulus) (s : state) :
  BLE_GAP_EVT_CONNECTED <> BLE_GAP_EVT_DISCONNECTED ->
  m_conn_handle s = tracked_handle st ->
  m_conn_handle (dispatch (deliver ev) s) = tracked_handle (tracker_step st ev).
Proof.
  intros Hne Hs. destruct ev as [h|h|pin action]; simpl.
  - apply connected_m_conn_handle. reflexivity.
  - apply disconnected_m_conn_handle; [assumption|reflexivity].
  - rewrite button_handler_m_conn_handle. assumption.
Qed.

Lemma run_tracks (evs : list stimulus) :
  BLE_GAP_EVT_CONNECTED <> BLE_GAP_EVT_DISCONNECTED ->
  forall (st : tracker) (s : state),
    m_conn_handle s = tracked_handle st ->
    m_conn_handle (run (map deliver evs) s) = tracked_handle (tracker_run st evs).
Proof.
  intros Hne. induction evs as [|ev evs IH]; intros st s Hs.
  - exact Hs.
  - simpl. unfold seq. apply IH. apply dispatch_tracks; assumption.
Qed.

Lemma tracker_run_app (st : tracker) (evs1 evs2 : list stimulus) :
  tracker_run st (evs1 ++ evs2) = tracker_run (tracker_run st evs1) evs2.
Proof. apply fold_left_app. Qed.

Lemma tracker_run_edges (st : tracker) (bs : list (Z * Z)) :
  tracker_run st (edges bs) = st.
Proof.
  induction bs as [|b bs IH]; [reflexivity|]. exact IH.
Qed.

(** C2: from the state that start-up leaves ([Advertising], the handle
    being the sentinel) and for every sequence of connect, disconnect and
    button events, [m_conn_handle] is the handle of the tracker's state:
    the handle of the connect event when [Connected], the sentinel
    [BLE_CONN_HANDLE_INVALID] when [Advertising] or [Idle].  In
    particular, after a connect event followed by button edges only it is
    the handle that event delivered, and after a disconnect event followed
    by button edges only it is the sentinel, whatever came before. *)
Theorem conn_handle_tracks_link_state
    (r : startup_replies) (name0 : string) (evs : list stimulus) :
  BLE_GAP_EVT_CONNECTED <> BLE_GAP_EVT_DISCONNECTED ->
  let after l := run (map deliver l) (main r (init_state name0)) in
  m_conn_handle (init_state name0) = tracked_handle Idle /\
  m_conn_handle (after []) = tracked_handle Advertising /\
  match tracker_run Advertising evs with
  | Connected h => m_conn_handle (after evs) = h
  | Advertising | Idle => m_conn_handle (after evs) = BLE_CONN_HANDLE_INVALID
  end /\
  (forall (h : Z) (bs : list (Z * Z)),
     m_conn_handle (after (evs ++ link_connected h :: edges bs)) = h) /\
  (forall (h : Z) (bs : list (Z * Z)),
     m_conn_handle (after (evs ++ link_disconnected h :: edges bs))
     = BLE_CONN_HANDLE_INVALID).
Proof.
  intros Hne after.
  assert (Hrun : forall l,
    m_conn_handle (after l) = tracked_handle (tracker_run Advertising l)).
  { intros l. unfold after. apply run_tracks; [assumption|reflexivity]. }
  split; [reflexivity|]. split; [reflexivity|]. split.
  - rewrite Hrun. destruct (tracker_run Advertising evs); reflexivity.
  - split; intros h bs; rewrite Hrun, tracker_run_app; simpl;
      fold (tracker_run (Connected h) (edges bs));
      fold (tracker_run Advertising (edges bs));
      rewrite tracker_run_edges; reflexivity.
Qed.

End Handlers.

Section ButtonHandler.
Context `{Sdk}.

Lemma button_handler_push (s : state) :
  let s' := button_handler BSP_BOARD_BUTTON_0 APP_BUTTON_PUSH s in
  leds s' = <[BSP_BOARD_LED_1 := true]> (leds s) /\
  trace s' = trace s ++
    [bsp_board_led_on_call BSP_BOARD_LED_1; notification s APP_BUTTON_PUSH] /\
  m_conn_handle s' = m_conn_handle s.
Proof.
  unfold button_handler, send_button, notification.
  rewrite !Z.eqb_refl. exec. rewrite <- app_assoc. auto.
Qed.

Lemma button_handler_release (s : state) :
  APP_BUTTON_PUSH <> APP_BUTTON_RELEASE ->
  let s' := button_handler BSP_BOARD_BUTTON_0 APP_BUTTON_RELEASE s in
  leds s' = <[BSP_BOARD_LED_1 := false]> (leds s) /\
  trace s' = trace s ++
    [bsp_board_led_off_call BSP_BOARD_LED_1; notification s APP_BUTTON_RELEASE] /\
  m_conn_handle s' = m_conn_handle s.
Proof.
  intros Hne. unfold button_handler, send_button, notification.
  rewrite Z.eqb_refl.
  destruct (Z.eqb_spec APP_BUTTON_RELEASE APP_BUTTON_PUSH) as [E|_];
    [congruence|].
  rewrite Z.eqb_refl. exec. rewrite <- app_assoc. auto.
Qed.

(** C3: on the monitored button and in every state, so after any
    interleaving of connect and disconnect events, a pressed edge turns
    the button LED on and then submits a one-byte notification carrying
    the pressed value for the current connection handle; a released edge
    turns the button LED off and then submits a one-byte notification
    carrying the released value.  Nothing else is called. *)
Theorem button_edge_led_and_notification (s : state) :
  APP_BUTTON_PUSH <> APP_BUTTON_RELEASE ->
  (let s' := button_handler BSP_BOARD_BUTTON_0 APP_BUTTON_PUSH s in
   leds s' !! BSP_BOARD_LED_1 = Some true /\
   trace s' = trace s ++
     [bsp_board_led_on_call BSP_BOARD_LED_1;
      sd_ble_gatts_hvx_call (m_conn_handle s)
        {| hvx_handle := value_handle (button_char_handles s);
           hvx_type := BLE_GATT_HVX_NOTIFICATION;
           hvx_offset := 0;
           hvx_len := 1;
           hvx_data := [APP_BUTTON_PUSH] |}]) /\
  (let s' := button_handler BSP_BOARD_BUTTON_0 APP_BUTTON_RELEASE s in
   leds s' !! BSP_BOARD_LED_1 = Some false /\
   trace s' = trace s ++
     [bsp_board_led_off_call BSP_BOARD_LED_1;
      sd_ble_gatts_hvx_call (m_conn_handle s)
        {| hvx_handle := value_handle (button_char_handles s);
           hvx_type := BLE_GATT_HVX_NOTIFICATION;
           hvx_offset := 0;
           hvx_len := 1;
           hvx_data := [APP_BUTTON_RELEASE] |}]).
Proof.
  intros Hne. split.
  - destruct (button_handler_push s) as (Hl & Ht & _).
    split; [|exact Ht]. rewrite Hl. apply lookup_insert_eq.
  - destruct (button_handler_release s Hne) as (Hl & Ht & _).
    split; [|exact Ht]. rewrite Hl. apply lookup_insert_eq.
Qed.

(** C4: a press of the monitored button while [m_conn_handle] is the
    invalid sentinel still turns the button LED on and still submits the
    notification, addressed at the sentinel handle; the handler stores
    nothing into [m_conn_handle], which is the sentinel afterwards as it
    was before. *)
Theorem button_press_without_connection (s : state) :
  m_conn_handle s = BLE_CONN_HANDLE_INVALID ->
  let s' := button_handler BSP_BOARD_BUTTON_0 APP_BUTTON_PUSH s in
  leds s' !! BSP_BOARD_LED_1 = Some true /\
  trace s' = trace s ++
    [bsp_board_led_on_call BSP_BOARD_LED_1;
     sd_ble_gatts_hvx_call BLE_CONN_HANDLE_INVALID
       {| hvx_handle := value_handle (button_char_handles s);
          hvx_type := BLE_GATT_HVX_NOTIFICATION;
          hvx_offset := 0;
          hvx_len := 1;
          hvx_data := [APP_BUTTON_PUSH] |}] /\
  m_conn_handle s' = m_conn_handle s /\
  m_conn_handle s' = BLE_CONN_HANDLE_INVALID.
Proof.
  intros Hs s'. destruct (button_handler_push s) as (Hl & Ht & Hc).
  fold s' in Hl, Ht, Hc. unfold notification in Ht. rewrite Hs in Ht.
  repeat split.
  - rewrite Hl. apply lookup_insert_eq.
  - exact Ht.
  - exact Hc.
  - rewrite Hc. exact Hs.
Qed.

(** C10: an edge on any pin other than [BSP_BOARD_BUTTON_0], pressed,
    released or any other action value, leaves the whole state as it is:
    no LED changes and nothing is added to the trace, so no notification
    is submitted. *)
Theorem button_handler_other_pin (pin action : Z) (s : state) :
  pin <> BSP_BOARD_BUTTON_0 ->
  button_handler pin action s = s.
Proof.
  intros Hpin. unfold button_handler.
  destruct (Z.eqb_spec pin BSP_BOARD_BUTTON_0) as [E|_]; [congruence|].
  reflexivity.
Qed.

End ButtonHandler.

Section BleEvtHandler.
Context `{Sdk}.

(** C6: a connect event, in every state and so while advertising, makes
    the handler do four things in this order and nothing else: turn the
    advertising LED ([BSP_BOARD_LED_2]) off, turn the connected LED
    ([BSP_BOARD_LED_3]) on, store the event's connection handle into
    [m_conn_handle], and assign that handle to the queued-write module.
    Afterwards the advertising LED is off, the connected LED is on and
    [m_conn_handle] is the event's handle. *)
Theorem connect_event_actions (e : ble_evt_t) (s : state) :
  BSP_BOARD_LED_2 <> BSP_BOARD_LED_3 ->
  evt_id e = BLE_GAP_EVT_CONNECTED ->
  let s' := ble_evt_handler e s in
  trace s' = trace s ++
    [bsp_board_led_off_call BSP_BOARD_LED_2;
     bsp_board_led_on_call BSP_BOARD_LED_3;
     m_conn_handle_store (conn_handle e);
     nrf_ble_qwr_conn_handle_assign_call (conn_handle e)] /\
  leds s' !! BSP_BOARD_LED_2 = Some false /\
  leds s' !! BSP_BOARD_LED_3 = Some true /\
  m_conn_handle s' = conn_handle e.
Proof.
  intros Hled He. unfold ble_evt_handler. rewrite He, Z.eqb_refl. exec.
  rewrite <- !app_assoc. simpl. repeat split.
  - rewrite lookup_insert_ne by congruence. apply lookup_insert_eq.
  - apply lookup_insert_eq.
Qed.

(** C5: a disconnect event, in every state and so while connected, makes
    the handler do the following in this order and nothing else, within
    the one call: turn the connected LED ([BSP_BOARD_LED_3]) off, store
    the sentinel into [m_conn_handle], start advertising on the
    configured advertising handle, and turn the advertising LED
    ([BSP_BOARD_LED_2]) on.  Afterwards the connected LED is off, the
    advertising LED is on and [m_conn_handle] is the sentinel. *)
Theorem disconnect_event_actions (e : ble_evt_t) (s : state) :
  BLE_GAP_EVT_CONNECTED <> BLE_GAP_EVT_DISCONNECTED ->
  BSP_BOARD_LED_2 <> BSP_BOARD_LED_3 ->
  evt_id e = BLE_GAP_EVT_DISCONNECTED ->
  let s' := ble_evt_handler e s in
  trace s' = trace s ++
    [bsp_board_led_off_call BSP_BOARD_LED_3;
     m_conn_handle_store BLE_CONN_HANDLE_INVALID;
     sd_ble_gap_adv_start_call (m_adv_handle s) APP_BLE_CONN_CFG_TAG;
     bsp_board_led_on_call BSP_BOARD_LED_2] /\
  leds s' !! BSP_BOARD_LED_3 = Some false /\
  m_conn_handle s' = BLE_CONN_HANDLE_INVALID /\
  leds s' !! BSP_BOARD_LED_2 = Some true.
Proof.
  intros Hevt Hled He. unfold ble_evt_handler. rewrite He.
  destruct (Z.eqb_spec BLE_GAP_EVT_DISCONNECTED BLE_GAP_EVT_CONNECTED) as [E|_];
    [congruence|].
  rewrite Z.eqb_refl. unfold advertising_start. exec.
  rewrite <- !app_assoc. simpl. repeat split.
  - rewrite lookup_insert_ne by congruence. apply lookup_insert_eq.
  - apply lookup_insert_eq.
Qed.

(** C9: a BLE event whose identifier is neither
    [BLE_GAP_EVT_CONNECTED] nor [BLE_GAP_EVT_DISCONNECTED] leaves the
    whole state as it is: the connection handle, every LED, the
    advertising handle and data, and the trace, to which no call is
    added, so advertising is neither started nor stopped. *)
Theorem ble_evt_handler_other_event (e : ble_evt_t) (s : state) :
  evt_id e <> BLE_GAP_EVT_CONNECTED ->
  evt_id e <> BLE_GAP_EVT_DISCONNECTED ->
  ble_evt_handler e s = s.
Proof.
  intros Hc Hd. unfold ble_evt_handler.
  destruct (Z.eqb_spec (evt_id e) BLE_GAP_EVT_CONNECTED) as [E|_]; [congruence|].
  destruct (Z.eqb_spec (evt_id e) BLE_GAP_EVT_DISCONNECTED) as [E|_]; [congruence|].
  reflexivity.
Qed.

End BleEvtHandler.

Section Startup.
Context `{Sdk}.

(** The state [main] leaves, as far as the globals and the LEDs go. *)
Lemma main_leds (r : startup_replies) (name0 : string) :
  leds (main r (init_state name0)) = {[ BSP_BOARD_LED_2 := true ]}.
Proof. reflexivity. Qed.

(** No event handler registers a service or a characteristic. *)
Lemma dispatch_registers_nothing (f : effect -> bool) (ev : event) (s : state) :
  f = is_service_add \/ f = is_characteristic_add ->
  List.filter f (trace (dispatch ev s)) = List.filter f (trace s).
Proof.
  intros Hf. destruct ev as [e|pin action]; simpl.
  - unfold ble_evt_handler, advertising_start.
    destruct (evt_id e =? BLE_GAP_EVT_CONNECTED);
      [|destruct (evt_id e =? BLE_GAP_EVT_DISCONNECTED)];
      exec; rewrite ?List.filter_app, ?app_nil_r;
      destruct Hf as [-> | ->]; simpl; rewrite ?app_nil_r; reflexivity.
  - unfold button_handler, send_button.
    destruct (pin =? BSP_BOARD_BUTTON_0);
      [destruct (action =? APP_BUTTON_PUSH);
         [|destruct (action =? APP_BUTTON_RELEASE)]|];
      exec; rewrite ?List.filter_app, ?app_nil_r;
      destruct Hf as [-> | ->]; simpl; rewrite ?app_nil_r; reflexivity.
Qed.

Lemma run_registers_nothing (f : effect -> bool) (evs : list event) :
  f = is_service_add \/ f = is_characteristic_add ->
  forall s : state,
    List.filter f (trace (run evs s)) = List.filter f (trace s).
Proof.
  intros Hf. induction evs as [|ev evs IH]; intros s; [reflexivity|].
  simpl. unfold seq. rewrite IH. apply dispatch_registers_nothing, Hf.
Qed.

(** C7: in the trace of start-up there is exactly one service
    registration, of a primary service, and exactly one characteristic
    registration, on the handle of that service; the characteristic has
    initial and maximum length 1 and no variable length, the properties
    read and notify and no other, open read access and open write access
    on its CCCD. *)
Theorem startup_registers_one_service_one_characteristic
    (r : startup_replies) (name0 : string) :
  let t := trace (main r (init_state name0)) in
  List.filter is_service_add t =
    [sd_ble_gatts_service_add_call BLE_GATTS_SRVC_TYPE_PRIMARY
       {| uuid := UUID_SERVICE; type := reply_uuid_type r |}] /\
  exists p : ble_add_char_params_t,
    List.filter is_characteristic_add t =
      [characteristic_add_call (reply_service_handle r) p] /\
    init_len p = 1 /\
    max_len p = 1 /\
    is_var_len p = false /\
    char_props p =
      {| broadcast := false; read := true; write_wo_resp := false;
         write := false; notify := true; indicate := false;
         auth_signed_wr := false |} /\
    read_access p = SEC_OPEN /\
    cccd_write_access p = SEC_OPEN.
Proof.
  split; [reflexivity|].
  exists (add_char_params (reply_uuid_type r)).
  repeat split.
Qed.

(** *** The advertising payload *)

Lemma advertising_init_m_adv_data (r : startup_replies) (s : state) :
  m_adv_data (advertising_init r s) =
    {| adv_data :=
         ble_advdata_encode (sd_device_name s) advdata (adv_data (m_adv_data s));
       scan_rsp_data :=
         ble_advdata_encode (sd_device_name s)
           (srdata [ {| uuid := UUID_SERVICE; type := reply_uuid_type r |} ])
           (scan_rsp_data (m_adv_data s)) |}.
Proof. reflexivity. Qed.

Lemma advertising_init_sd_device_name (r : startup_replies) (s : state) :
  sd_device_name (advertising_init r s) = sd_device_name s.
Proof. reflexivity. Qed.


(** Building a second time on top of the first build changes nothing,
    provided the encoder maps its own output buffer to itself. *)
Lemma advertising_init_twice (r : startup_replies) (s : state) :
  (forall name d buf,
     ble_advdata_encode name d (ble_advdata_encode name d buf)
     = ble_advdata_encode name d buf) ->
  m_adv_data (advertising_init r (advertising_init r s))
  = m_adv_data (advertising_init r s).
Proof.
  intros Hidem.
  rewrite (advertising_init_m_adv_data r (advertising_init r s)).
  rewrite advertising_init_sd_device_name, advertising_init_m_adv_data.
  simpl. rewrite !Hidem. reflexivity.
Qed.

(** *** The preferred connection parameters *)

Lemma gap_params_init_trace (s : state) :
  trace (gap_params_init s) = trace s ++
    [sd_ble_gap_device_name_set_call BLE_GAP_CONN_SEC_MODE_SET_OPEN
       DEVICE_NAME 17;
     sd_ble_gap_ppcp_set_call
       {| min_conn_interval := u16 MIN_CONN_INTERVAL;
          max_conn_interval := u16 MIN_CONN_INTERVAL;
          slave_latency := 0;
          conn_sup_timeout := u16 CONN_SUP_TIMEOUT |}].
Proof.
  unfold gap_params_init, sd_ble_gap_device_name_set, sd_ble_gap_ppcp_set.
  exec. rewrite <- app_assoc. reflexivity.
Qed.

End Startup.

Lemma model_ble_advdata_encode_twice
    (name : string) (d : ble_advdata_t) (buf : ble_data_t) :
  model_ble_advdata_encode name d (model_ble_advdata_encode name d buf)
  = model_ble_advdata_encode name d buf.
Proof.
  unfold model_ble_advdata_encode.
  destruct (Z.leb_spec (Z.of_nat (length (encode_fields name d))) (len buf)) as [Hfit|Hover];
    simpl.
  - rewrite Z.leb_refl. rewrite drop_app_length. reflexivity.
  - destruct (encode_fields name d) as [|b out] eqn:E; simpl.
    + rewrite drop_0. destruct buf; reflexivity.
    + destruct (Z.leb_spec (Z.of_nat (S (length out))) 0) as [Hle|_]; [lia|].
      reflexivity.
Qed.

(** C1: with the values of the SDK headers, the only preferred-connection-
    parameter call of start-up carries 80 units (100 ms) as minimum and
    again 80 units as maximum connection interval: the maximum passed is
    [MIN_CONN_INTERVAL], while [MAX_CONN_INTERVAL] is 160 units (200 ms). *)
Theorem ppcp_max_interval_is_min_interval (r : startup_replies) (name0 : string) :
  List.filter is_ppcp_set (trace (@main nrf5_sdk r (@init_state nrf5_sdk name0))) =
    [sd_ble_gap_ppcp_set_call
       {| min_conn_interval := 80;
          max_conn_interval := 80;
          slave_latency := 0;
          conn_sup_timeout := 400 |}] /\
  @MIN_CONN_INTERVAL nrf5_sdk = 80 /\
  @MAX_CONN_INTERVAL nrf5_sdk = 160.
Proof. repeat split. Qed.

(** ** The properties at the SDK's values *)

Lemma conn_handle_tracks_link_state_witness :
  @BLE_GAP_EVT_CONNECTED nrf5_sdk <> @BLE_GAP_EVT_DISCONNECTED nrf5_sdk /\
  m_conn_handle (@run nrf5_sdk (map (@deliver nrf5_sdk) sample_stimuli) booted) = 7 /\
  m_conn_handle
    (@run nrf5_sdk
       (map (@deliver nrf5_sdk) (sample_stimuli ++ link_disconnected 7 :: @edges [(0, 0)]))
       booted) = 0xFFFF.
Proof.
  assert (Hne : @BLE_GAP_EVT_CONNECTED nrf5_sdk <> @BLE_GAP_EVT_DISCONNECTED nrf5_sdk)
    by (simpl; lia).
  pose proof (@conn_handle_tracks_link_state nrf5_sdk sample_replies "nRF5x"
                sample_stimuli Hne) as (_ & _ & Hinv & _ & Hdisc).
  split; [exact Hne|]. split; [exact Hinv|]. exact (Hdisc 7 [(0, 0)]).
Defined.

Lemma button_edge_led_and_notification_witness :
  @APP_BUTTON_PUSH nrf5_sdk <> @APP_BUTTON_RELEASE nrf5_sdk /\
  leds (@button_handler nrf5_sdk 0 1 linked) !! 1 = Some true /\
  trace (@button_handler nrf5_sdk 0 1 linked) = trace linked ++
    [bsp_board_led_on_call 1;
     sd_ble_gatts_hvx_call 0
       {| hvx_handle := 16; hvx_type := 1; hvx_offset := 0; hvx_len := 1;
          hvx_data := [1] |}] /\
  leds (@button_handler nrf5_sdk 0 0 linked) !! 1 = Some false /\
  trace (@button_handler nrf5_sdk 0 0 linked) = trace linked ++
    [bsp_board_led_off_call 1;
     sd_ble_gatts_hvx_call 0
       {| hvx_handle := 16; hvx_type := 1; hvx_offset := 0; hvx_len := 1;
          hvx_data := [0] |}].
Proof.
  assert (Hne : @APP_BUTTON_PUSH nrf5_sdk <> @APP_BUTTON_RELEASE nrf5_sdk)
    by (simpl; lia).
  pose proof (@button_edge_led_and_notification nrf5_sdk linked Hne)
    as [[Hon Hpush] [Hoff Hrelease]].
  split; [exact Hne|]. split; [exact Hon|]. split; [exact Hpush|].
  split; [exact Hoff|exact Hrelease].
Defined.

Lemma button_press_without_connection_witness :
  m_conn_handle booted = @BLE_CONN_HANDLE_INVALID nrf5_sdk /\
  leds (@button_handler nrf5_sdk 0 1 booted) !! 1 = Some true /\
  trace (@button_handler nrf5_sdk 0 1 booted) = trace booted ++
    [bsp_board_led_on_call 1;
     sd_ble_gatts_hvx_call 0xFFFF
       {| hvx_handle := 16; hvx_type := 1; hvx_offset := 0; hvx_len := 1;
          hvx_data := [1] |}] /\
  m_conn_handle (@button_handler nrf5_sdk 0 1 booted) = 0xFFFF.
Proof.
  assert (Hs : m_conn_handle booted = @BLE_CONN_HANDLE_INVALID nrf5_sdk)
    by reflexivity.
  pose proof (@button_press_without_connection nrf5_sdk booted Hs)
    as (Hon & Htrace & _ & Hkeep).
  split; [exact Hs|]. split; [exact Hon|]. split; [exact Htrace|exact Hkeep].
Defined.

Lemma button_handler_other_pin_witness :
  3 <> @BSP_BOARD_BUTTON_0 nrf5_sdk /\
  @button_handler nrf5_sdk 3 1 linked = linked.
Proof.
  assert (Hpin : 3 <> @BSP_BOARD_BUTTON_0 nrf5_sdk) by (simpl; lia).
  split; [exact Hpin|].
  exact (@button_handler_other_pin nrf5_sdk 3 1 linked Hpin).
Defined.

Lemma connect_event_actions_witness :
  @BSP_BOARD_LED_2 nrf5_sdk <> @BSP_BOARD_LED_3 nrf5_sdk /\
  trace linked = trace booted ++
    [bsp_board_led_off_call 2; bsp_board_led_on_call 3;
     m_conn_handle_store 0; nrf_ble_qwr_conn_handle_assign_call 0] /\
  leds linked !! 2 = Some false /\
  leds linked !! 3 = Some true /\
  m_conn_handle linked = 0.
Proof.
  assert (Hled : @BSP_BOARD_LED_2 nrf5_sdk <> @BSP_BOARD_LED_3 nrf5_sdk)
    by (simpl; lia).
  split; [exact Hled|].
  exact (@connect_event_actions nrf5_sdk
           {| evt_id := 0x10; conn_handle := 0 |} booted Hled eq_refl).
Defined.

Lemma disconnect_event_actions_witness :
  @BLE_GAP_EVT_CONNECTED nrf5_sdk <> @BLE_GAP_EVT_DISCONNECTED nrf5_sdk /\
  @BSP_BOARD_LED_2 nrf5_sdk <> @BSP_BOARD_LED_3 nrf5_sdk /\
  let s' := @ble_evt_handler nrf5_sdk {| evt_id := 0x11; conn_handle := 0 |} linked in
  trace s' = trace linked ++
    [bsp_board_led_off_call 3; m_conn_handle_store 0xFFFF;
     sd_ble_gap_adv_start_call 0 1; bsp_board_led_on_call 2] /\
  leds s' !! 3 = Some false /\
  m_conn_handle s' = 0xFFFF /\
  leds s' !! 2 = Some true.
Proof.
  assert (Hevt : @BLE_GAP_EVT_CONNECTED nrf5_sdk <> @BLE_GAP_EVT_DISCONNECTED nrf5_sdk)
    by (simpl; lia).
  assert (Hled : @BSP_BOARD_LED_2 nrf5_sdk <> @BSP_BOARD_LED_3 nrf5_sdk)
    by (simpl; lia).
  split; [exact Hevt|]. split; [exact Hled|].
  exact (@disconnect_event_actions nrf5_sdk
           {| evt_id := 0x11; conn_handle := 0 |} linked Hevt Hled eq_refl).
Defined.

Lemma ble_evt_handler_other_event_witness :
  0x50 <> @BLE_GAP_EVT_CONNECTED nrf5_sdk /\
  0x50 <> @BLE_GAP_EVT_DISCONNECTED nrf5_sdk /\
  @ble_evt_handler nrf5_sdk {| evt_id := 0x50; conn_handle := 0 |} linked = linked.
Proof.
  assert (Hc : 0x50 <> @BLE_GAP_EVT_CONNECTED nrf5_sdk) by (simpl; lia).
  assert (Hd : 0x50 <> @BLE_GAP_EVT_DISCONNECTED nrf5_sdk) by (simpl; lia).
  split; [exact Hc|]. split; [exact Hd|].
  exact (@ble_evt_handler_other_event nrf5_sdk
           {| evt_id := 0x50; conn_handle := 0 |} linked Hc Hd).
Defined.


(** ** Further properties of the handlers and of start-up *)

(** Splits on the branch a handler takes for a raw event. *)
Ltac by_handler_cases ev :=
  let e := fresh "e" in
  let pin := fresh "pin" in
  let action := fresh "action" in
  destruct ev as [e|pin action]; simpl;
  [ unfold ble_evt_handler, advertising_start;
    destruct (evt_id e =? BLE_GAP_EVT_CONNECTED);
      [|destruct (evt_id e =? BLE_GAP_EVT_DISCONNECTED)]
  | unfold button_handler, send_button;
    destruct (pin =? BSP_BOARD_BUTTON_0);
      [destruct (action =? APP_BUTTON_PUSH);
         [|destruct (action =? APP_BUTTON_RELEASE)]|] ];
  exec.

Section Runtime.
Context `{Sdk}.

(** *** What no handler writes *)

Lemma dispatch_keeps_configuration (ev : event) (s : state) :
  m_adv_handle (dispatch ev s) = m_adv_handle s /\
  m_adv_data (dispatch ev s) = m_adv_data s /\
  button_char_handles (dispatch ev s) = button_char_handles s /\
  sd_device_name (dispatch ev s) = sd_device_name s.
Proof. by_handler_cases ev; repeat split. Qed.

Lemma run_frame (evs : list event) :
  forall s : state,
    m_adv_handle (run evs s) = m_adv_handle s /\
    m_adv_data (run evs s) = m_adv_data s /\
    button_char_handles (run evs s) = button_char_handles s /\
    sd_device_name (run evs s) = sd_device_name s.
Proof.
  induction evs as [|ev evs IH]; intros s; [repeat split|].
  simpl. unfold seq.
  destruct (IH (dispatch ev s)) as (Ha & Hd & Hb & Hn).
  destruct (dispatch_keeps_configuration ev s) as (Ha' & Hd' & Hb' & Hn').
  rewrite Ha, Hd, Hb, Hn. auto.
Qed.

(** X2: whatever events arrive, in whatever order, the handlers leave the
    advertising handle, the advertising and scan-response buffers with
    their lengths, the handles of the button characteristic and the device
    name as they found them: after start-up the advertising payload and
    the attribute handles are never written again. *)
Theorem run_keeps_configuration (evs : list event) (s : state) :
  m_adv_handle (run evs s) = m_adv_handle s /\
  m_adv_data (run evs s) = m_adv_data s /\
  button_char_handles (run evs s) = button_char_handles s /\
  sd_device_name (run evs s) = sd_device_name s.
Proof.
  destruct (run_frame evs s) as (Ha & Hd & Hb & Hn).
  split; [exact Ha|]. split; [exact Hd|]. split; [exact Hb|exact Hn].
Qed.

(** *** What the handlers call *)

Lemma dispatch_emits_handler_effects (ev : event) (s : state) :
  exists l : list effect,
    trace (dispatch ev s) = trace s ++ l /\ forallb handler_effect l = true.
Proof.
  by_handler_cases ev; rewrite <- ?app_assoc; simpl;
    try (eexists; split; reflexivity).
  all: exists []; rewrite app_nil_r; split; reflexivity.
Qed.

(** X8: whatever events arrive, the trace afterwards is the trace before
    followed only by LED switches, stores into [m_conn_handle],
    queued-write handle assignments, advertising starts and notifications.
    No handler registers a service or characteristic, sets the device name
    or the preferred connection parameters, encodes or configures
    advertising data, or initialises a module. *)
Theorem run_emits_handler_effects (evs : list event) (s : state) :
  exists l : list effect,
    trace (run evs s) = trace s ++ l /\ forallb handler_effect l = true.
Proof.
  revert s. induction evs as [|ev evs IH]; intros s.
  - exists []. rewrite app_nil_r. split; reflexivity.
  - simpl. unfold seq.
    destruct (dispatch_emits_handler_effects ev s) as (l1 & Ht1 & Hl1).
    destruct (IH (dispatch ev s)) as (l2 & Ht2 & Hl2).
    exists (l1 ++ l2). split.
    + rewrite Ht2, Ht1, app_assoc. reflexivity.
    + rewrite forallb_app, Hl1, Hl2. reflexivity.
Qed.

(** *** Notifications *)

Lemma dispatch_notification_count (ev : event) (s : state) :
  length (List.filter is_hvx (trace (dispatch ev s))) =
  (length (List.filter is_hvx (trace s))
   + (if is_monitored_edge ev then 1 else 0))%nat.
Proof.
  destruct ev as [e|pin action]; simpl.
  - unfold ble_evt_handler, advertising_start.
    destruct (evt_id e =? BLE_GAP_EVT_CONNECTED);
      [|destruct (evt_id e =? BLE_GAP_EVT_DISCONNECTED)];
      exec; rewrite ?List.filter_app; simpl; rewrite ?app_nil_r; lia.
  - unfold button_handler, send_button.
    destruct (pin =? BSP_BOARD_BUTTON_0);
      [destruct (action =? APP_BUTTON_PUSH);
         [|destruct (action =? APP_BUTTON_RELEASE)]|];
      exec; rewrite ?List.filter_app; simpl;
      rewrite ?app_nil_r, ?length_app; simpl; lia.
Qed.

(** X6: over any sequence of events the number of notifications submitted
    grows by exactly the number of button events on the monitored button:
    every such edge submits one, whatever its action value and whether or
    not a link is up, and neither an edge on another pin nor any BLE event
    submits one. *)
Theorem run_notification_count (evs : list event) (s : state) :
  length (List.filter is_hvx (trace (run evs s))) =
  (length (List.filter is_hvx (trace s)) + monitored_edges evs)%nat.
Proof.
  revert s. unfold monitored_edges.
  induction evs as [|ev evs IH]; intros s; simpl.
  - unfold skip. lia.
  - unfold seq. rewrite IH, dispatch_notification_count.
    destruct (is_monitored_edge ev); simpl; lia.
Qed.

(** X1: an edge on the monitored button whose action is neither
    [APP_BUTTON_PUSH] nor [APP_BUTTON_RELEASE] switches no LED, yet still
    submits a one-byte notification carrying that action value; the
    connection handle is left alone. *)
Theorem button_handler_other_action (action : Z) (s : state) :
  action <> APP_BUTTON_PUSH ->
  action <> APP_BUTTON_RELEASE ->
  let s' := button_handler BSP_BOARD_BUTTON_0 action s in
  leds s' = leds s /\
  trace s' = trace s ++
    [sd_ble_gatts_hvx_call (m_conn_handle s)
       {| hvx_handle := value_handle (button_char_handles s);
          hvx_type := BLE_GATT_HVX_NOTIFICATION;
          hvx_offset := 0;
          hvx_len := 1;
          hvx_data := [action] |}] /\
  m_conn_handle s' = m_conn_handle s.
Proof.
  intros Hpush Hrelease. unfold button_handler, send_button.
  rewrite Z.eqb_refl.
  destruct (Z.eqb_spec action APP_BUTTON_PUSH) as [E|_]; [congruence|].
  destruct (Z.eqb_spec action APP_BUTTON_RELEASE) as [E|_]; [congruence|].
  exec. repeat split.
Qed.

(** X3: after start-up and any sequence of connect, disconnect and button
    events, a press of the monitored button submits its notification for
    the handle of the most recent connect event if the link is up, and for
    the sentinel if it is not, and always at the value handle that
    [characteristic_add] returned at start-up. *)
Theorem press_notifies_current_link
    (r : startup_replies) (name0 : string) (evs : list stimulus) :
  BLE_GAP_EVT_CONNECTED <> BLE_GAP_EVT_DISCONNECTED ->
  let s := run (map deliver evs) (main r (init_state name0)) in
  trace (button_handler BSP_BOARD_BUTTON_0 APP_BUTTON_PUSH s) = trace s ++
    [bsp_board_led_on_call BSP_BOARD_LED_1;
     sd_ble_gatts_hvx_call
       (match tracker_run Advertising evs with
        | Connected h => h
        | Advertising | Idle => BLE_CONN_HANDLE_INVALID
        end)
       {| hvx_handle := value_handle (reply_char_handles r);
          hvx_type := BLE_GATT_HVX_NOTIFICATION;
          hvx_offset := 0;
          hvx_len := 1;
          hvx_data := [APP_BUTTON_PUSH] |}].
Proof.
  intros Hne s.
  destruct (button_handler_push s) as (_ & Ht & _). rewrite Ht.
  unfold notification.
  assert (Hh : m_conn_handle s = tracked_handle (tracker_run Advertising evs)).
  { unfold s. apply run_tracks; [assumption|reflexivity]. }
  assert (Hv : button_char_handles s = reply_char_handles r).
  { unfold s.
    destruct (run_frame (map deliver evs) (main r (init_state name0)))
      as (_ & _ & Hb & _).
    rewrite Hb. reflexivity. }
  rewrite Hh, Hv. reflexivity.
Qed.

End Runtime.

Section StatusLeds.
Context `{Sdk}.

(** *** The LEDs each handler drives *)

Lemma connected_leds (e : ble_evt_t) (s : state) :
  evt_id e = BLE_GAP_EVT_CONNECTED ->
  leds (ble_evt_handler e s)
  = <[BSP_BOARD_LED_3 := true]> (<[BSP_BOARD_LED_2 := false]> (leds s)).
Proof.
  intros He. unfold ble_evt_handler. rewrite He, Z.eqb_refl. reflexivity.
Qed.

Lemma disconnected_leds (e : ble_evt_t) (s : state) :
  BLE_GAP_EVT_CONNECTED <> BLE_GAP_EVT_DISCONNECTED ->
  evt_id e = BLE_GAP_EVT_DISCONNECTED ->
  leds (ble_evt_handler e s)
  = <[BSP_BOARD_LED_2 := true]> (<[BSP_BOARD_LED_3 := false]> (leds s)).
Proof.
  intros Hne He. unfold ble_evt_handler. rewrite He.
  destruct (Z.eqb_spec BLE_GAP_EVT_DISCONNECTED BLE_GAP_EVT_CONNECTED) as [E|_];
    [congruence|].
  rewrite Z.eqb_refl. reflexivity.
Qed.

Lemma button_handler_other_led (pin action led_idx : Z) (s : state) :
  led_idx <> BSP_BOARD_LED_1 ->
  leds (button_handler pin action s) !! led_idx = leds s !! led_idx.
Proof.
  intros Hled. unfold button_handler, send_button.
  destruct (pin =? BSP_BOARD_BUTTON_0);
    [destruct (action =? APP_BUTTON_PUSH);
       [|destruct (action =? APP_BUTTON_RELEASE)]|];
    exec; rewrite ?lookup_insert_ne by congruence; reflexivity.
Qed.

Lemma ble_evt_handler_other_led (e : ble_evt_t) (led_idx : Z) (s : state) :
  led_idx <> BSP_BOARD_LED_2 ->
  led_idx <> BSP_BOARD_LED_3 ->
  leds (ble_evt_handler e s) !! led_idx = leds s !! led_idx.
Proof.
  intros H2 H3. unfold ble_evt_handler, advertising_start.
  destruct (evt_id e =? BLE_GAP_EVT_CONNECTED);
    [|destruct (evt_id e =? BLE_GAP_EVT_DISCONNECTED)];
    exec; rewrite ?lookup_insert_ne by congruence; reflexivity.
Qed.

Lemma run_ble_evts_other_led (es : list ble_evt_t) (led_idx : Z) :
  led_idx <> BSP_BOARD_LED_2 ->
  led_idx <> BSP_BOARD_LED_3 ->
  forall s : state,
    leds (run (map on_ble_evt es) s) !! led_idx = leds s !! led_idx.
Proof.
  intros H2 H3. induction es as [|e es IH]; intros s; [reflexivity|].
  simpl. unfold seq. rewrite IH. apply ble_evt_handler_other_led; assumption.
Qed.

(** The advertising LED and the connected LED agree with a tracker state. *)
Lemma dispatch_status_leds (st : tracker) (ev : stimulus) (s : state) :
  BLE_GAP_EVT_CONNECTED <> BLE_GAP_EVT_DISCONNECTED ->
  BSP_BOARD_LED_1 <> BSP_BOARD_LED_2 ->
  BSP_BOARD_LED_1 <> BSP_BOARD_LED_3 ->
  BSP_BOARD_LED_2 <> BSP_BOARD_LED_3 ->
  led_lit (leds s) BSP_BOARD_LED_2 = negb (is_connected st) /\
  led_lit (leds s) BSP_BOARD_LED_3 = is_connected st ->
  let s' := dispatch (deliver ev) s in
  led_lit (leds s') BSP_BOARD_LED_2 = negb (is_connected (tracker_step st ev)) /\
  led_lit (leds s') BSP_BOARD_LED_3 = is_connected (tracker_step st ev).
Proof.
  intros Hevt H12 H13 H23 [Hadv Hconn]. unfold led_lit in *.
  destruct ev as [h|h|pin action]; simpl.
  - rewrite connected_leds by reflexivity.
    rewrite lookup_insert_eq, lookup_insert_ne, lookup_insert_eq by congruence.
    split; reflexivity.
  - rewrite disconnected_leds by (assumption || reflexivity).
    rewrite lookup_insert_eq, lookup_insert_ne, lookup_insert_eq by congruence.
    split; reflexivity.
  - rewrite !button_handler_other_led by congruence. split; assumption.
Qed.

(** X4: after start-up and any sequence of connect, disconnect and button
    events, the advertising LED ([BSP_BOARD_LED_2]) is lit exactly when no
    link is up and the connected LED ([BSP_BOARD_LED_3]) is lit exactly
    when a link is up; the two are never lit together and never both
    dark, also when connect or disconnect events repeat. *)
Theorem status_leds_follow_link_state
    (r : startup_replies) (name0 : string) (evs : list stimulus) :
  BLE_GAP_EVT_CONNECTED <> BLE_GAP_EVT_DISCONNECTED ->
  BSP_BOARD_LED_1 <> BSP_BOARD_LED_2 ->
  BSP_BOARD_LED_1 <> BSP_BOARD_LED_3 ->
  BSP_BOARD_LED_2 <> BSP_BOARD_LED_3 ->
  let s := run (map deliver evs) (main r (init_state name0)) in
  led_lit (leds s) BSP_BOARD_LED_2 = negb (is_connected (tracker_run Advertising evs)) /\
  led_lit (leds s) BSP_BOARD_LED_3 = is_connected (tracker_run Advertising evs).
Proof.
  intros Hevt H12 H13 H23.
  assert (Hbase :
    led_lit (leds (main r (init_state name0))) BSP_BOARD_LED_2
      = negb (is_connected Advertising) /\
    led_lit (leds (main r (init_state name0))) BSP_BOARD_LED_3
      = is_connected Advertising).
  { rewrite main_leds. unfold led_lit.
    rewrite lookup_singleton_eq, lookup_singleton_ne by congruence.
    split; reflexivity. }
  generalize dependent (main r (init_state name0)).
  generalize Advertising.
  induction evs as [|ev evs IH]; intros st s0 Hinv; [exact Hinv|].
  simpl. unfold seq. apply IH.
  apply dispatch_status_leds; assumption.
Qed.

(** X5: the button LED ([BSP_BOARD_LED_1]) keeps showing the last edge of
    the monitored button across BLE events: after a press followed by any
    BLE events it is on, after a release followed by any BLE events it is
    off. *)
Theorem button_led_survives_ble_events (es : list ble_evt_t) (s : state) :
  BSP_BOARD_LED_1 <> BSP_BOARD_LED_2 ->
  BSP_BOARD_LED_1 <> BSP_BOARD_LED_3 ->
  APP_BUTTON_PUSH <> APP_BUTTON_RELEASE ->
  leds (run (map on_ble_evt es)
          (button_handler BSP_BOARD_BUTTON_0 APP_BUTTON_PUSH s))
    !! BSP_BOARD_LED_1 = Some true /\
  leds (run (map on_ble_evt es)
          (button_handler BSP_BOARD_BUTTON_0 APP_BUTTON_RELEASE s))
    !! BSP_BOARD_LED_1 = Some false.
Proof.
  intros H12 H13 Hne.
  rewrite !run_ble_evts_other_led by assumption.
  destruct (button_handler_push s) as (Hon & _ & _).
  destruct (button_handler_release s Hne) as (Hoff & _ & _).
  rewrite Hon, Hoff, !lookup_insert_eq. split; reflexivity.
Qed.

End StatusLeds.

Section Advertising.
Context `{Sdk}.

(** *** Advertising starts *)

Lemma dispatch_adv_starts (ev : stimulus) (s : state) :
  BLE_GAP_EVT_CONNECTED <> BLE_GAP_EVT_DISCONNECTED ->
  List.filter is_adv_start (trace (dispatch (deliver ev) s)) =
  List.filter is_adv_start (trace s) ++
    (if is_link_disconnected ev
     then [sd_ble_gap_adv_start_call (m_adv_handle s) APP_BLE_CONN_CFG_TAG]
     else []).
Proof.
  intros Hne. destruct ev as [h|h|pin action]; simpl.
  - unfold ble_evt_handler. simpl. rewrite Z.eqb_refl. exec.
    rewrite !List.filter_app. simpl. rewrite !app_nil_r. reflexivity.
  - unfold ble_evt_handler, advertising_start. simpl.
    destruct (Z.eqb_spec BLE_GAP_EVT_DISCONNECTED BLE_GAP_EVT_CONNECTED) as [E|_];
      [congruence|].
    rewrite Z.eqb_refl. exec.
    rewrite !List.filter_app. simpl. rewrite !app_nil_r. reflexivity.
  - unfold button_handler, send_button.
    destruct (pin =? BSP_BOARD_BUTTON_0);
      [destruct (action =? APP_BUTTON_PUSH);
         [|destruct (action =? APP_BUTTON_RELEASE)]|];
      exec; rewrite ?List.filter_app; simpl; rewrite ?app_nil_r; reflexivity.
Qed.

Lemma run_adv_starts (evs : list stimulus) :
  BLE_GAP_EVT_CONNECTED <> BLE_GAP_EVT_DISCONNECTED ->
  forall s : state,
    List.filter is_adv_start (trace (run (map deliver evs) s)) =
    List.filter is_adv_start (trace s) ++
      replicate (disconnects evs)
        (sd_ble_gap_adv_start_call (m_adv_handle s) APP_BLE_CONN_CFG_TAG).
Proof.
  intros Hne. unfold disconnects.
  induction evs as [|ev evs IH]; intros s; simpl.
  - unfold skip. rewrite app_nil_r. reflexivity.
  - unfold seq. rewrite IH, dispatch_adv_starts by assumption.
    destruct (dispatch_keeps_configuration (deliver ev) s) as (Ha & _).
    rewrite Ha, <- app_assoc.
    destruct (is_link_disconnected ev); reflexivity.
Qed.

(** X7: after start-up and any sequence of connect, disconnect and button
    events, advertising has been started once by [main] and once more for
    every disconnect event, also for a disconnect event that arrives
    while no link is up, and by nothing else; every start is on the
    advertising handle that the configuration at start-up returned. *)
Theorem advertising_restarts_per_disconnect
    (r : startup_replies) (name0 : string) (evs : list stimulus) :
  BLE_GAP_EVT_CONNECTED <> BLE_GAP_EVT_DISCONNECTED ->
  List.filter is_adv_start
    (trace (run (map deliver evs) (main r (init_state name0)))) =
  replicate (S (disconnects evs))
    (sd_ble_gap_adv_start_call (reply_adv_handle r) APP_BLE_CONN_CFG_TAG).
Proof.
  intros Hne. rewrite run_adv_starts by assumption. reflexivity.
Qed.

(** X9: start-up hands to [sd_ble_gap_adv_set_configure], once, the two
    buffers as the encoder left them for the device name [DEVICE_NAME]
    (whatever name the stack held before), starting from zeroed buffers at
    full capacity, together with the advertising handle still unset; this
    call comes before the one advertising start, which is on the handle
    the configuration returned.  The globals end up holding that payload
    and that handle. *)
Theorem startup_configures_encoded_payload
    (r : startup_replies) (name0 : string) :
  let s := main r (init_state name0) in
  let configure :=
    sd_ble_gap_adv_set_configure_call BLE_GAP_ADV_SET_HANDLE_NOT_SET
      (startup_payload (reply_uuid_type r)) adv_params in
  let start :=
    sd_ble_gap_adv_start_call (reply_adv_handle r) APP_BLE_CONN_CFG_TAG in
  List.filter is_adv_set_configure (trace s) = [configure] /\
  List.filter is_adv_start (trace s) = [start] /\
  (exists t1 t2 t3 : list effect,
     trace s = t1 ++ configure :: t2 ++ start :: t3) /\
  m_adv_data s = startup_payload (reply_uuid_type r) /\
  m_adv_handle s = reply_adv_handle r /\
  sd_device_name s = DEVICE_NAME.
Proof.
  intros s configure start.
  split; [reflexivity|]. split; [reflexivity|]. split.
  - exists (take 16 (trace s)), (take 1 (drop 17 (trace s))),
      (drop 19 (trace s)).
    reflexivity.
  - repeat split.
Qed.

(** *** The queued-write module *)

Lemma dispatch_last_qwr_assign (ev : stimulus) (s : state) :
  BLE_GAP_EVT_CONNECTED <> BLE_GAP_EVT_DISCONNECTED ->
  last_qwr_assign None (trace (dispatch (deliver ev) s)) =
  last_connect (last_qwr_assign None (trace s)) [ev].
Proof.
  intros Hne. unfold last_qwr_assign, last_connect.
  destruct ev as [h|h|pin action]; simpl.
  - unfold ble_evt_handler. simpl. rewrite Z.eqb_refl. exec.
    rewrite !fold_left_app. reflexivity.
  - unfold ble_evt_handler, advertising_start. simpl.
    destruct (Z.eqb_spec BLE_GAP_EVT_DISCONNECTED BLE_GAP_EVT_CONNECTED) as [E|_];
      [congruence|].
    rewrite Z.eqb_refl. exec. rewrite !fold_left_app. reflexivity.
  - unfold button_handler, send_button.
    destruct (pin =? BSP_BOARD_BUTTON_0);
      [destruct (action =? APP_BUTTON_PUSH);
         [|destruct (action =? APP_BUTTON_RELEASE)]|];
      exec; rewrite ?fold_left_app; reflexivity.
Qed.

Lemma run_last_qwr_assign (evs : list stimulus) :
  BLE_GAP_EVT_CONNECTED <> BLE_GAP_EVT_DISCONNECTED ->
  forall s : state,
    last_qwr_assign None (trace (run (map deliver evs) s)) =
    last_connect (last_qwr_assign None (trace s)) evs.
Proof.
  intros Hne. induction evs as [|ev evs IH]; intros s; [reflexivity|].
  simpl. unfold seq. rewrite IH, dispatch_last_qwr_assign by assumption.
  reflexivity.
Qed.

(** X10: after start-up and any sequence of connect, disconnect and button
    events, the handle last assigned to the queued-write module is the
    handle of the most recent connect event (none if there was no connect
    event).  A disconnect event does not touch the assignment: right after
    a connect with handle [h] followed by a disconnect, [m_conn_handle] is
    the sentinel while the handle last assigned to the queued-write module
    is still [h]. *)
Theorem qwr_handle_assigned_on_connect_only
    (r : startup_replies) (name0 : string) (evs : list stimulus) :
  BLE_GAP_EVT_CONNECTED <> BLE_GAP_EVT_DISCONNECTED ->
  let after l := run (map deliver l) (main r (init_state name0)) in
  last_qwr_assign None (trace (after evs)) = last_connect None evs /\
  forall h h' : Z,
    let s := after (evs ++ [link_connected h; link_disconnected h']) in
    m_conn_handle s = BLE_CONN_HANDLE_INVALID /\
    last_qwr_assign None (trace s) = Some h.
Proof.
  intros Hne after.
  assert (Hq : forall l,
    last_qwr_assign None (trace (after l)) = last_connect None l).
  { intros l. unfold after. rewrite run_last_qwr_assign by assumption.
    reflexivity. }
  split; [apply Hq|]. intros h h' s. split.
  - unfold s, after.
    rewrite (run_tracks _ Hne Advertising) by reflexivity.
    rewrite tracker_run_app. reflexivity.
  - unfold s. rewrite Hq. unfold last_connect. rewrite fold_left_app.
    reflexivity.
Qed.

End Advertising.

Section Notifications.
Context `{Sdk}.

Lemma dispatch_button_notifications (value_h : Z) (ev : event) (s : state) :
  value_handle (button_char_handles s) = value_h ->
  Forall (button_notification value_h) (trace s) ->
  Forall (button_notification value_h) (trace (dispatch ev s)).
Proof.
  intros Hv Ht.
  by_handler_cases ev; rewrite ?Forall_app; repeat split;
    try assumption; repeat constructor; simpl; auto.
Qed.

Lemma run_button_notifications (value_h : Z) (evs : list event) :
  forall s : state,
    value_handle (button_char_handles s) = value_h ->
    Forall (button_notification value_h) (trace s) ->
    Forall (button_notification value_h) (trace (run evs s)).
Proof.
  induction evs as [|ev evs IH]; intros s Hv Ht; [exact Ht|].
  simpl. unfold seq. apply IH.
  - destruct (dispatch_keeps_configuration ev s) as (_ & _ & Hb & _).
    rewrite Hb. exact Hv.
  - apply dispatch_button_notifications; assumption.
Qed.

(** X11: every call to [sd_ble_gatts_hvx] made from start-up on, over any
    sequence of events, is a notification of exactly one byte at offset 0,
    addressed at the value handle that [characteristic_add] returned for
    the button characteristic. *)
Theorem notifications_are_one_byte_at_button_characteristic
    (r : startup_replies) (name0 : string) (evs : list event) :
  Forall (button_notification (value_handle (reply_char_handles r)))
    (trace (run evs (main r (init_state name0)))).
Proof.
  apply run_button_notifications; [reflexivity|].
  simpl. repeat (apply Forall_cons; split; [exact I|]). apply Forall_nil_2.
Qed.

End Notifications.

(** ** The further properties at the SDK's values *)

Lemma button_handler_other_action_witness :
  2 <> @APP_BUTTON_PUSH nrf5_sdk /\
  2 <> @APP_BUTTON_RELEASE nrf5_sdk /\
  leds (@button_handler nrf5_sdk 0 2 linked) = leds linked /\
  trace (@button_handler nrf5_sdk 0 2 linked) = trace linked ++
    [sd_ble_gatts_hvx_call 0
       {| hvx_handle := 16; hvx_type := 1; hvx_offset := 0; hvx_len := 1;
          hvx_data := [2] |}] /\
  m_conn_handle (@button_handler nrf5_sdk 0 2 linked) = 0.
Proof.
  assert (Hpush : 2 <> @APP_BUTTON_PUSH nrf5_sdk) by (simpl; lia).
  assert (Hrelease : 2 <> @APP_BUTTON_RELEASE nrf5_sdk) by (simpl; lia).
  split; [exact Hpush|]. split; [exact Hrelease|].
  exact (@button_handler_other_action nrf5_sdk 2 linked Hpush Hrelease).
Defined.

Lemma press_notifies_current_link_witness :
  @BLE_GAP_EVT_CONNECTED nrf5_sdk <> @BLE_GAP_EVT_DISCONNECTED nrf5_sdk /\
  let s := @run nrf5_sdk (map (@deliver nrf5_sdk) sample_stimuli) booted in
  trace (@button_handler nrf5_sdk 0 1 s) = trace s ++
    [bsp_board_led_on_call 1;
     sd_ble_gatts_hvx_call 7
       {| hvx_handle := 16; hvx_type := 1; hvx_offset := 0; hvx_len := 1;
          hvx_data := [1] |}].
Proof.
  assert (Hne : @BLE_GAP_EVT_CONNECTED nrf5_sdk <> @BLE_GAP_EVT_DISCONNECTED nrf5_sdk)
    by (simpl; lia).
  split; [exact Hne|].
  exact (@press_notifies_current_link nrf5_sdk sample_replies "nRF5x"
           sample_stimuli Hne).
Defined.

Lemma status_leds_follow_link_state_witness :
  @BLE_GAP_EVT_CONNECTED nrf5_sdk <> @BLE_GAP_EVT_DISCONNECTED nrf5_sdk /\
  @BSP_BOARD_LED_1 nrf5_sdk <> @BSP_BOARD_LED_2 nrf5_sdk /\
  @BSP_BOARD_LED_1 nrf5_sdk <> @BSP_BOARD_LED_3 nrf5_sdk /\
  @BSP_BOARD_LED_2 nrf5_sdk <> @BSP_BOARD_LED_3 nrf5_sdk /\
  let s := @run nrf5_sdk (map (@deliver nrf5_sdk) sample_stimuli) booted in
  led_lit (leds s) 2 = false /\ led_lit (leds s) 3 = true.
Proof.
  assert (Hne : @BLE_GAP_EVT_CONNECTED nrf5_sdk <> @BLE_GAP_EVT_DISCONNECTED nrf5_sdk)
    by (simpl; lia).
  assert (H12 : @BSP_BOARD_LED_1 nrf5_sdk <> @BSP_BOARD_LED_2 nrf5_sdk)
    by (simpl; lia).
  assert (H13 : @BSP_BOARD_LED_1 nrf5_sdk <> @BSP_BOARD_LED_3 nrf5_sdk)
    by (simpl; lia).
  assert (H23 : @BSP_BOARD_LED_2 nrf5_sdk <> @BSP_BOARD_LED_3 nrf5_sdk)
    by (simpl; lia).
  split; [exact Hne|]. split; [exact H12|]. split; [exact H13|].
  split; [exact H23|].
  exact (@status_leds_follow_link_state nrf5_sdk sample_replies "nRF5x"
           sample_stimuli Hne H12 H13 H23).
Defined.

Lemma button_led_survives_ble_events_witness :
  @BSP_BOARD_LED_1 nrf5_sdk <> @BSP_BOARD_LED_2 nrf5_sdk /\
  @BSP_BOARD_LED_1 nrf5_sdk <> @BSP_BOARD_LED_3 nrf5_sdk /\
  @APP_BUTTON_PUSH nrf5_sdk <> @APP_BUTTON_RELEASE nrf5_sdk /\
  let es := [ {| evt_id := 0x10; conn_handle := 3 |};
              {| evt_id := 0x11; conn_handle := 3 |} ] in
  leds (@run nrf5_sdk (map on_ble_evt es) (@button_handler nrf5_sdk 0 1 booted))
    !! 1 = Some true /\
  leds (@run nrf5_sdk (map on_ble_evt es) (@button_handler nrf5_sdk 0 0 booted))
    !! 1 = Some false.
Proof.
  assert (H12 : @BSP_BOARD_LED_1 nrf5_sdk <> @BSP_BOARD_LED_2 nrf5_sdk)
    by (simpl; lia).
  assert (H13 : @BSP_BOARD_LED_1 nrf5_sdk <> @BSP_BOARD_LED_3 nrf5_sdk)
    by (simpl; lia).
  assert (Hne : @APP_BUTTON_PUSH nrf5_sdk <> @APP_BUTTON_RELEASE nrf5_sdk)
    by (simpl; lia).
  split; [exact H12|]. split; [exact H13|]. split; [exact Hne|].
  exact (@button_led_survives_ble_events nrf5_sdk
           [ {| evt_id := 0x10; conn_handle := 3 |};
             {| evt_id := 0x11; conn_handle := 3 |} ] booted H12 H13 Hne).
Defined.

Lemma advertising_restarts_per_disconnect_witness :
  @BLE_GAP_EVT_CONNECTED nrf5_sdk <> @BLE_GAP_EVT_DISCONNECTED nrf5_sdk /\
  List.filter is_adv_start
    (trace (@run nrf5_sdk
              (map (@deliver nrf5_sdk) (link_disconnected 9 :: sample_stimuli))
              booted)) =
  [sd_ble_gap_adv_start_call 0 1; sd_ble_gap_adv_start_call 0 1;
   sd_ble_gap_adv_start_call 0 1].
Proof.
  assert (Hne : @BLE_GAP_EVT_CONNECTED nrf5_sdk <> @BLE_GAP_EVT_DISCONNECTED nrf5_sdk)
    by (simpl; lia).
  split; [exact Hne|].
  exact (@advertising_restarts_per_disconnect nrf5_sdk sample_replies "nRF5x"
           (link_disconnected 9 :: sample_stimuli) Hne).
Defined.

Lemma qwr_handle_assigned_on_connect_only_witness :
  @BLE_GAP_EVT_CONNECTED nrf5_sdk <> @BLE_GAP_EVT_DISCONNECTED nrf5_sdk /\
  last_qwr_assign None
    (trace (@run nrf5_sdk (map (@deliver nrf5_sdk) sample_stimuli) booted)) = Some 7 /\
  let s :=
    @run nrf5_sdk
      (map (@deliver nrf5_sdk)
         (sample_stimuli ++ [link_connected 9; link_disconnected 9])) booted in
  m_conn_handle s = 0xFFFF /\ last_qwr_assign None (trace s) = Some 9.
Proof.
  assert (Hne : @BLE_GAP_EVT_CONNECTED nrf5_sdk <> @BLE_GAP_EVT_DISCONNECTED nrf5_sdk)
    by (simpl; lia).
  pose proof (@qwr_handle_assigned_on_connect_only nrf5_sdk sample_replies "nRF5x"
                sample_stimuli Hne) as [Hlast Hstale].
  split; [exact Hne|]. split; [exact Hlast|]. exact (Hstale 9 9).
Defined.
